(** * transformer_engine: the top-level package body

    A shallow embedding of [transformer_engine/__init__.py]: the statements
    of the module body are computations over the module's globals, an
    exception either completes a statement abruptly or is caught by the
    enclosing [try], and whatever lies outside the file (the sub-packages,
    the installed distribution metadata) is a parameter of the run. *)

From stdpp Require Import base strings gmap list.

Local Open Scope string_scope.
Set Warnings "-register-all".

(** ** Exception classes

    A class is its name and its direct bases; [BaseException] is the root. *)

Inductive exc_class : Type :=
  | PyClass (cls_name : string) (cls_bases : list exc_class).

Fixpoint class_eqb (c d : exc_class) : bool :=
  match c, d with
  | PyClass n bs, PyClass m ds =>
      String.eqb n m &&
      (fix all2 (xs ys : list exc_class) {struct xs} : bool :=
         match xs, ys with
         | [], [] => true
         | x :: xs', y :: ys' => class_eqb x y && all2 xs' ys'
         | _, _ => false
         end) bs ds
  end.

(** [issubclass c target]: [c] is [target] or one of its bases is a
    subclass of [target]. *)
Fixpoint issubclass (c target : exc_class) : bool :=
  class_eqb c target ||
  match c with
  | PyClass _ bs => existsb (fun b => issubclass b target) bs
  end.

Definition BaseException : exc_class := PyClass "BaseException" [].
Definition Exception : exc_class := PyClass "Exception" [BaseException].
Definition ImportError : exc_class := PyClass "ImportError" [Exception].
Definition ModuleNotFoundError : exc_class :=
  PyClass "ModuleNotFoundError" [ImportError].
Definition PackageNotFoundError : exc_class :=
  PyClass "PackageNotFoundError" [ModuleNotFoundError].
Definition OSError : exc_class := PyClass "OSError" [Exception].
Definition FileNotFoundError : exc_class :=
  PyClass "FileNotFoundError" [OSError].
Definition RuntimeError : exc_class := PyClass "RuntimeError" [Exception].
Definition KeyboardInterrupt : exc_class :=
  PyClass "KeyboardInterrupt" [BaseException].

(** An exception object: its class and its message. *)
Record exn : Type := Exn { exn_type : exc_class; exn_msg : string }.

Definition isinstance (e : exn) (c : exc_class) : bool :=
  issubclass (exn_type e) c.

(** ** Values and the world outside the file *)

Inductive pyval : Type :=
  | PyNone
  | PyStr (s : string)
  | PyModule (qualname : string).

(** [str(v)] on the values that reach it here. *)
Definition py_str (v : pyval) : string :=
  match v with
  | PyNone => "None"
  | PyStr s => s
  | PyModule q => "<module '" +:+ q +:+ "'>"
  end.

(** What running a sub-package's own [__init__] does. *)
Inductive init_outcome : Type :=
  | InitOk
  | InitRaises (e : exn).

(** A sub-package is either not installed or installed with some
    initialisation behaviour. *)
Inductive artifact : Type :=
  | NotInstalled
  | Installed (o : init_outcome).

(** How evaluating an expression or a statement ends. *)
Inductive completion (A : Type) : Type :=
  | Normal (a : A)
  | Raised (e : exn).
Arguments Normal {A} a.
Arguments Raised {A} e.

(** The world: the sub-packages by qualified name, and what the packaging
    layer answers when asked for the version of a distribution. *)
Record world : Type := World {
  submodules : string -> artifact;
  metadata_lookup : string -> completion pyval
}.

(** The answer of [importlib.metadata] when a distribution has no metadata. *)
Definition no_metadata (dist : string) : exn :=
  Exn PackageNotFoundError ("No package metadata was found for " +:+ dist).

(** ** Module state and the statement monad *)

Inductive event : Type :=
  | EvImport (qualname : string)
  | EvVersionLookup (dist : string).

Global Instance event_eq_dec : EqDecision event.
Proof. solve_decision. Defined.

Record pstate : Type := PState {
  globals : gmap string pyval;
  trace : list event
}.

Definition Py (A : Type) : Type := pstate -> completion A * pstate.

Definition ret {A} (a : A) : Py A := fun st => (Normal a, st).

Definition bind {A B} (k : A -> Py B) (m : Py A) : Py B :=
  fun st =>
    match m st with
    | (Normal a, st') => k a st'
    | (Raised e, st') => (Raised e, st')
    end.

Global Instance py_ret : MRet Py := @ret.
Global Instance py_bind : MBind Py := @bind.

Definition raise {A} (e : exn) : Py A := fun st => (Raised e, st).

Definition log (ev : event) : Py unit :=
  fun st => (Normal tt, PState (globals st) (trace st ++ [ev])).

Definition assign (name : string) (v : pyval) : Py unit :=
  fun st => (Normal tt, PState (<[name := v]> (globals st)) (trace st)).

Definition pass : Py unit := ret tt.

(** [try: body except (classes): handler]: an exception of [body] that is
    an instance of one of [classes] runs [handler]; any other leaves the
    statement. *)
Definition try_except (body : Py unit) (classes : list exc_class)
    (handler : Py unit) : Py unit :=
  fun st =>
    match body st with
    | (Normal a, st') => (Normal a, st')
    | (Raised e, st') =>
        if existsb (isinstance e) classes then handler st'
        else (Raised e, st')
    end.

(** ** The import machinery, as far as this file drives it *)

Definition this_package : string := "transformer_engine".

Definition qualified (pkg sub : string) : string := pkg +:+ "." +:+ sub.

(** Finding and running sub-package [sub] of [pkg]. [missing] is what the
    statement raises when there is no such sub-package. On success the
    sub-module becomes an attribute of its parent, and the parent here is
    the module whose globals these are. *)
Definition load_submodule (w : world) (pkg sub : string) (missing : exn)
    : Py unit :=
  log (EvImport (qualified pkg sub)) ;;
  match submodules w (qualified pkg sub) with
  | NotInstalled => raise missing
  | Installed (InitRaises e) => raise e
  | Installed InitOk => assign sub (PyModule (qualified pkg sub))
  end.

(** [from importlib import metadata]: standard library, always there. *)
Definition from_importlib_import_metadata : Py unit :=
  assign "metadata" (PyModule "importlib.metadata").

(** [import pkg.sub]: loads the sub-module and binds the top-level name. *)
Definition import_dotted (w : world) (pkg sub : string) : Py unit :=
  load_submodule w pkg sub
    (Exn ModuleNotFoundError
       ("No module named '" +:+ qualified pkg sub +:+ "'")) ;;
  assign pkg (PyModule pkg).

(** [from . import sub] inside package [this_package]. *)
Definition from_dot_import (w : world) (sub : string) : Py unit :=
  load_submodule w this_package sub
    (Exn ImportError
       ("cannot import name '" +:+ sub +:+ "' from '" +:+ this_package
        +:+ "'")).

(** [metadata.version(dist)] *)
Definition metadata_version (w : world) (dist : string) : Py pyval :=
  log (EvVersionLookup dist) ;;
  match metadata_lookup w dist with
  | Normal v => ret v
  | Raised e => raise e
  end.

(** ** The module body, statement by statement *)

Definition tolerated : list exc_class := [ImportError; FileNotFoundError].

Definition core_loader (w : world) : Py unit :=
  import_dotted w "transformer_engine" "common".

Definition activate_backend (w : world) (name : string) : Py unit :=
  try_except (from_dot_import w name) tolerated pass.

Definition version_resolver (w : world) : Py unit :=
  v ← metadata_version w "transformer_engine";
  assign "__version__" (PyStr (py_str v)).

Definition module_body (w : world) : Py unit :=
  from_importlib_import_metadata ;;
  core_loader w ;;
  activate_backend w "pytorch" ;;
  activate_backend w "jax" ;;
  version_resolver w.

Definition fresh : pstate := PState ∅ [].

(** Running the package body from scratch. *)
Definition bootstrap (w : world) : completion unit * pstate :=
  module_body w fresh.

(** ** What can be observed of a run *)

(** The exception a computation raises from state [st], if any. *)
Definition raises {A} (m : Py A) (st : pstate) : option exn :=
  match m st with
  | (Normal _, _) => None
  | (Raised e, _) => Some e
  end.

Definition known_backends : list string := ["pytorch"; "jax"].

(** A backend is active when its name is bound to its module. *)
Definition backend_active (st : pstate) (name : string) : bool :=
  match globals st !! name with
  | Some (PyModule _) => true
  | _ => false
  end.

(** How many times the import of sub-package [name] was started. *)
Definition attempts (st : pstate) (name : string) : nat :=
  length (filter (λ ev, ev = EvImport (qualified this_package name))
            (trace st)).

(** Reading [transformer_engine.__version__] off the module. *)
Definition read_version (st : pstate) : option pyval :=
  globals st !! "__version__".

(** The activation states of the design's data model, read off a run: the
    module itself only has a name bound or not bound, the reason for an
    unbound name is taken from the world. *)
Inductive activation_state : Type :=
  | NotAttempted
  | Active
  | InactiveAbsent
  | InactiveFailed.

Definition activation_state_of (w : world) (st : pstate) (name : string)
    : activation_state :=
  match attempts st name with
  | O => NotAttempted
  | S _ =>
      if backend_active st name then Active
      else match submodules w (qualified this_package name) with
           | NotInstalled => InactiveAbsent
           | Installed _ => InactiveFailed
           end
  end.

(** ** The states a run goes through *)

Definition logged (ev : event) (st : pstate) : pstate :=
  PState (globals st) (trace st ++ [ev]).

Definition bound (name : string) (v : pyval) (st : pstate) : pstate :=
  PState (<[name := v]> (globals st)) (trace st).

(** State in which the core is loaded: line 9 has bound [metadata]. *)
Definition entered (st : pstate) : pstate :=
  bound "metadata" (PyModule "importlib.metadata") st.

Definition st_init : pstate := entered fresh.

Definition core_event : event := EvImport "transformer_engine.common".

Definition backend_event (name : string) : event :=
  EvImport (qualified this_package name).

Definition after_core (st : pstate) : pstate :=
  bound "transformer_engine" (PyModule "transformer_engine")
    (bound "common" (PyModule "transformer_engine.common")
       (logged core_event st)).

(** The tuple of the two [except] clauses, spelled out. *)
Definition suppressed (e : exn) : bool :=
  isinstance e ImportError || isinstance e FileNotFoundError.

Definition absent_exn (name : string) : exn :=
  Exn ImportError
    ("cannot import name '" +:+ name +:+ "' from '" +:+ this_package +:+ "'").

(** Where the run stops: the exceptions of the three imports, each taken
    from the statement itself. *)
Definition core_exn (w : world) : option exn :=
  raises (core_loader w) st_init.

Definition backend_exn (w : world) (name : string) : option exn :=
  raises (from_dot_import w name) st_init.

(** The exception of a backend import that gets past the [except]. *)
Definition escaping (o : option exn) : option exn :=
  match o with
  | Some e => if suppressed e then None else Some e
  | None => None
  end.

Definition after_backend (w : world) (name : string) (st : pstate)
    : pstate :=
  match backend_exn w name with
  | None =>
      bound name (PyModule (qualified this_package name))
        (logged (backend_event name) st)
  | Some _ => logged (backend_event name) st
  end.

Definition full_order : list event :=
  [core_event; backend_event "pytorch"; backend_event "jax";
   EvVersionLookup "transformer_engine"].

(** ** Worlds that agree *)

(** The worlds [w] and [w'] agree on sub-package [b]. *)
Definition same_artifact (w w' : world) (b : string) : Prop :=
  submodules w (qualified this_package b)
  = submodules w' (qualified this_package b).

(** The worlds [w] and [w'] have the same sub-packages. *)
Definition same_submodules (w w' : world) : Prop :=
  ∀ q, submodules w q = submodules w' q.

(** ** The package inside a process

    A client reads the version as [transformer_engine.__version__]. The
    import runs the package body when the module is not yet in
    [sys.modules] and registers the module only if the body completes;
    later imports return the registered module. *)

Record process : Type := Process {
  sys_modules : gmap string (gmap string pyval);
  history : list event
}.

Definition new_process : process := Process ∅ [].

Definition import_package (w : world) (p : process)
    : completion (gmap string pyval) * process :=
  match sys_modules p !! this_package with
  | Some m => (Normal m, p)
  | None =>
      match module_body w (PState ∅ (history p)) with
      | (Normal _, st) =>
          (Normal (globals st),
           Process (<[this_package := globals st]> (sys_modules p))
             (trace st))
      | (Raised e, st) => (Raised e, Process (sys_modules p) (trace st))
      end
  end.

Definition AttributeError : exc_class := PyClass "AttributeError" [Exception].

Definition getattr (m : gmap string pyval) (name : string)
    : completion pyval :=
  match m !! name with
  | Some v => Normal v
  | None =>
      Raised (Exn AttributeError
                ("module has no attribute '" +:+ name +:+ "'"))
  end.

(** [import transformer_engine; transformer_engine.__version__] *)
Definition version_query (w : world) (p : process)
    : completion pyval * process :=
  match import_package w p with
  | (Normal m, p') => (getattr m "__version__", p')
  | (Raised e, p') => (Raised e, p')
  end.

(** The process after [n] version queries in a row. *)
Fixpoint after_queries (w : world) (n : nat) (p : process) : process :=
  match n with
  | O => p
  | S k => after_queries w k (version_query w p).2
  end.

Definition lookups_made (p : process) : nat :=
  length (filter (λ ev, ev = EvVersionLookup this_package) (history p)).

(** The history in front of a state's trace. *)
Definition with_history (h : list event) (st : pstate) : pstate :=
  PState (globals st) (h ++ trace st).

(** What every query answers, read off the run of the body. *)
Definition answer (w : world) : completion pyval :=
  match (bootstrap w).1 with
  | Normal _ => getattr (globals (bootstrap w).2) "__version__"
  | Raised e => Raised e
  end.

(** The processes a run of queries goes through. *)
Definition settled (w : world) (p : process) : Prop :=
  sys_modules p !! this_package = None ∨
  (∃ u, (bootstrap w).1 = Normal u) ∧
  sys_modules p !! this_package = Some (globals (bootstrap w).2).

(** ** Some worlds *)

(** A world from its three sub-packages and the answer about the version;
    nothing else is installed. *)
Definition world_with (core pytorch jax : artifact)
    (md : completion pyval) : world :=
  World
    (λ q, if String.eqb q "transformer_engine.common" then core
          else if String.eqb q "transformer_engine.pytorch" then pytorch
          else if String.eqb q "transformer_engine.jax" then jax
          else NotInstalled)
    (λ d, if String.eqb d "transformer_engine" then md
          else Raised (no_metadata d)).

Definition w_all_installed : world :=
  world_with (Installed InitOk) (Installed InitOk) (Installed InitOk)
    (Normal (PyStr "2.0")).

Definition w_only_pytorch : world :=
  world_with (Installed InitOk) (Installed InitOk) NotInstalled
    (Normal (PyStr "2.0")).

Definition w_core_only : world :=
  world_with (Installed InitOk) NotInstalled NotInstalled
    (Normal (PyStr "2.0")).

Definition w_jax_needs_flax : world :=
  world_with (Installed InitOk) (Installed InitOk)
    (Installed (InitRaises (Exn ModuleNotFoundError "No module named 'flax'")))
    (Normal (PyStr "2.0")).

Definition boom : exn := Exn RuntimeError "boom".

Definition w_pytorch_faulty : world :=
  world_with (Installed InitOk) (Installed (InitRaises boom))
    (Installed InitOk) (Normal (PyStr "2.0")).

Definition w_core_interrupted : world :=
  world_with (Installed (InitRaises (Exn KeyboardInterrupt "^C")))
    (Installed InitOk) (Installed InitOk) (Normal (PyStr "2.0")).

Definition w_no_metadata : world :=
  world_with (Installed InitOk) (Installed InitOk) (Installed InitOk)
    (Raised (no_metadata "transformer_engine")).

Definition w_version_is_none : world :=
  world_with (Installed InitOk) NotInstalled NotInstalled (Normal PyNone).

(** ** The names the body assigns *)


(** The two [try] statements alone, in either order. *)
Definition activate_both (w : world) (first second : string) : Py unit :=
  activate_backend w first ;; activate_backend w second.

(** An exception class with two bases, one of them under [ImportError]. *)
Definition BackendUnavailable : exc_class :=
  PyClass "BackendUnavailable" [RuntimeError; ModuleNotFoundError].

Definition w_jax_unavailable : world :=
  world_with (Installed InitOk) (Installed InitOk)
    (Installed (InitRaises (Exn BackendUnavailable "no accelerator")))
    (Normal (PyStr "2.0")).

(** * Properties *)

(** ** The class hierarchy *)

Lemma class_eqb_refl : ∀ c, class_eqb c c = true.
Proof.
  fix IH 1. intros [n bs]. cbn [class_eqb]. rewrite String.eqb_refl.
  cbn [andb]. induction bs as [|b bs IHbs]; [reflexivity|].
  by rewrite IH, IHbs.
Qed.

Lemma issubclass_refl c : issubclass c c = true.
Proof. destruct c. cbn [issubclass]. by rewrite class_eqb_refl. Qed.

(** A direct base is a superclass. *)
Lemma issubclass_base n bs b :
  b ∈ bs → issubclass (PyClass n bs) b = true.
Proof.
  intros Hb. cbn [issubclass]. apply orb_true_iff. right.
  apply existsb_exists. exists b. split; [by apply list_elem_of_In|].
  apply issubclass_refl.
Qed.

Example module_not_found_is_import_error :
  issubclass ModuleNotFoundError ImportError = true.
Proof. reflexivity. Qed.

Example package_not_found_is_import_error :
  issubclass PackageNotFoundError ImportError = true.
Proof. reflexivity. Qed.

Example os_error_is_not_file_not_found :
  issubclass OSError FileNotFoundError = false.
Proof. reflexivity. Qed.

Example runtime_error_is_not_tolerated :
  existsb (isinstance boom) tolerated = false.
Proof. reflexivity. Qed.

Example keyboard_interrupt_is_not_exception :
  issubclass KeyboardInterrupt Exception = false.
Proof. reflexivity. Qed.

(** [str] of a version that came back as [None]. *)
Example version_of_none :
  (bootstrap w_version_is_none).1 = Normal tt ∧
  read_version (bootstrap w_version_is_none).2 = Some (PyStr "None").
Proof. split; reflexivity. Qed.

Example all_installed_run :
  (bootstrap w_all_installed).1 = Normal tt ∧
  trace (bootstrap w_all_installed).2 = full_order ∧
  dom (globals (bootstrap w_all_installed).2)
  = ({["metadata"; "transformer_engine"; "common"; "pytorch"; "jax";
       "__version__"]} : gset string).
Proof. repeat split; vm_compute; reflexivity. Qed.

(** ** Step lemmas: each statement in closed form *)

Lemma bind_run {A B} (m : Py A) (k : A → Py B) st :
  (m ≫= k) st =
  match m st with
  | (Normal a, st') => k a st'
  | (Raised e, st') => (Raised e, st')
  end.
Proof. reflexivity. Qed.

Lemma load_submodule_run w pkg sub missing st :
  load_submodule w pkg sub missing st =
  match submodules w (qualified pkg sub) with
  | NotInstalled => (Raised missing, logged (EvImport (qualified pkg sub)) st)
  | Installed (InitRaises e) =>
      (Raised e, logged (EvImport (qualified pkg sub)) st)
  | Installed InitOk =>
      (Normal tt,
       bound sub (PyModule (qualified pkg sub))
         (logged (EvImport (qualified pkg sub)) st))
  end.
Proof.
  unfold load_submodule. rewrite bind_run. cbn [log].
  destruct (submodules w (qualified pkg sub)) as [|[|e]]; reflexivity.
Qed.

(** Whether an import raises, and what, does not depend on the state. *)
Lemma raises_load_submodule w pkg sub missing st st' :
  raises (load_submodule w pkg sub missing) st =
  raises (load_submodule w pkg sub missing) st'.
Proof.
  unfold raises. rewrite !load_submodule_run.
  destruct (submodules w (qualified pkg sub)) as [|[|e]]; reflexivity.
Qed.

Lemma raises_core_loader w st st' :
  raises (core_loader w) st = raises (core_loader w) st'.
Proof.
  unfold raises, core_loader, import_dotted. rewrite !bind_run.
  rewrite !load_submodule_run.
  destruct (submodules w _) as [|[|e]]; reflexivity.
Qed.

Lemma raises_from_dot_import w name st st' :
  raises (from_dot_import w name) st = raises (from_dot_import w name) st'.
Proof. apply raises_load_submodule. Qed.

(** A failed import leaves the globals alone and adds one event. *)
Lemma from_dot_import_raised w name st e st' :
  from_dot_import w name st = (Raised e, st') →
  st' = logged (EvImport (qualified this_package name)) st.
Proof.
  unfold from_dot_import. rewrite load_submodule_run.
  destruct (submodules w _) as [|[|e0]]; intros H; inversion H; reflexivity.
Qed.

Lemma from_dot_import_normal w name st st' :
  from_dot_import w name st = (Normal tt, st') →
  st' = bound name (PyModule (qualified this_package name))
          (logged (EvImport (qualified this_package name)) st).
Proof.
  unfold from_dot_import. rewrite load_submodule_run.
  destruct (submodules w _) as [|[|e0]]; intros H; inversion H; reflexivity.
Qed.

Lemma core_loader_raised w st e st' :
  core_loader w st = (Raised e, st') →
  st' = logged (EvImport "transformer_engine.common") st.
Proof.
  unfold core_loader, import_dotted. rewrite bind_run, load_submodule_run.
  change (qualified "transformer_engine" "common")
    with "transformer_engine.common".
  destruct (submodules w _) as [|[|e0]]; intros H; inversion H; reflexivity.
Qed.

Lemma core_loader_normal w st st' :
  core_loader w st = (Normal tt, st') →
  st' = bound "transformer_engine" (PyModule "transformer_engine")
          (bound "common" (PyModule "transformer_engine.common")
             (logged (EvImport "transformer_engine.common") st)).
Proof.
  unfold core_loader, import_dotted. rewrite bind_run, load_submodule_run.
  change (qualified "transformer_engine" "common")
    with "transformer_engine.common".
  destruct (submodules w _) as [|[|e0]]; intros H; inversion H; reflexivity.
Qed.

(** The [try] statement around a backend import, case by case. *)
Lemma activate_backend_run w name st :
  activate_backend w name st =
  match from_dot_import w name st with
  | (Normal a, st') => (Normal a, st')
  | (Raised e, st') =>
      if isinstance e ImportError || isinstance e FileNotFoundError
      then (Normal tt, st')
      else (Raised e, st')
  end.
Proof.
  unfold activate_backend, try_except, tolerated, pass.
  destruct (from_dot_import w name st) as [[a|e] st']; [reflexivity|].
  cbn [existsb]. rewrite orb_false_r. reflexivity.
Qed.

(** ** The run of the whole body, phase by phase *)

Lemma module_body_run w st :
  module_body w st =
  match core_loader w (entered st) with
  | (Raised e, st1) => (Raised e, st1)
  | (Normal _, st1) =>
      match activate_backend w "pytorch" st1 with
      | (Raised e, st2) => (Raised e, st2)
      | (Normal _, st2) =>
          match activate_backend w "jax" st2 with
          | (Raised e, st3) => (Raised e, st3)
          | (Normal _, st3) => version_resolver w st3
          end
      end
  end.
Proof.
  unfold module_body. rewrite bind_run.
  change (from_importlib_import_metadata st) with (Normal tt, entered st).
  cbv beta iota. rewrite bind_run.
  destruct (core_loader w (entered st)) as [[[]|e] st1]; [|reflexivity].
  rewrite bind_run.
  destruct (activate_backend w "pytorch" st1) as [[[]|e] st2]; [|reflexivity].
  rewrite bind_run.
  destruct (activate_backend w "jax" st2) as [[[]|e] st3]; reflexivity.
Qed.

Lemma raises_Some {A} (m : Py A) st e :
  raises m st = Some e → ∃ st', m st = (Raised e, st').
Proof.
  unfold raises. destruct (m st) as [[a|e'] st']; [discriminate|].
  intros [= ->]. eauto.
Qed.

(** Every exception can be the core's: a world whose core raises it. *)
Lemma core_loader_can_raise e py jx md st :
  raises (core_loader (world_with (Installed (InitRaises e)) py jx md)) st
  = Some e.
Proof. reflexivity. Qed.

(** C8. A failure of the core's activation, whatever the class of the
    exception, is not caught: the very same exception leaves the package
    body, nothing after the core import has run, and no version has been
    assigned. *)
Theorem core_failure_is_fatal (w : world) (e : exn) (st : pstate) :
  raises (core_loader w) st = Some e →
  (bootstrap w).1 = Raised e ∧
  trace (bootstrap w).2 = [core_event] ∧
  read_version (bootstrap w).2 = None.
Proof.
  intros H. rewrite (raises_core_loader w st st_init) in H.
  apply raises_Some in H as [st1 H1].
  unfold bootstrap. rewrite module_body_run. fold st_init.
  rewrite H1. cbn [fst snd].
  apply core_loader_raised in H1 as ->. done.
Qed.

Lemma core_failure_is_fatal_witness :
  raises (core_loader w_core_interrupted) fresh
    = Some (Exn KeyboardInterrupt "^C") ∧
  (bootstrap w_core_interrupted).1 = Raised (Exn KeyboardInterrupt "^C").
Proof.
  split; [reflexivity|].
  apply (core_failure_is_fatal w_core_interrupted
           (Exn KeyboardInterrupt "^C") fresh).
  reflexivity.
Defined.

Lemma activate_backend_closed w name st :
  activate_backend w name st =
  match raises (from_dot_import w name) st with
  | None =>
      (Normal tt,
       bound name (PyModule (qualified this_package name))
         (logged (backend_event name) st))
  | Some e =>
      if suppressed e then (Normal tt, logged (backend_event name) st)
      else (Raised e, logged (backend_event name) st)
  end.
Proof.
  rewrite activate_backend_run. unfold raises, suppressed.
  destruct (from_dot_import w name st) as [[[]|e] st'] eqn:E.
  - apply from_dot_import_normal in E as ->. reflexivity.
  - apply from_dot_import_raised in E as ->. reflexivity.
Qed.

Lemma core_loader_closed w st :
  core_loader w st =
  match raises (core_loader w) st with
  | None =>
      (Normal tt,
       bound "transformer_engine" (PyModule "transformer_engine")
         (bound "common" (PyModule "transformer_engine.common")
            (logged core_event st)))
  | Some e => (Raised e, logged core_event st)
  end.
Proof.
  unfold raises.
  destruct (core_loader w st) as [[[]|e] st'] eqn:E.
  - apply core_loader_normal in E as ->. reflexivity.
  - apply core_loader_raised in E as ->. reflexivity.
Qed.

Lemma version_resolver_closed w st :
  version_resolver w st =
  match metadata_lookup w "transformer_engine" with
  | Raised e => (Raised e, logged (EvVersionLookup "transformer_engine") st)
  | Normal v =>
      (Normal tt,
       bound "__version__" (PyStr (py_str v))
         (logged (EvVersionLookup "transformer_engine") st))
  end.
Proof.
  unfold version_resolver, metadata_version. rewrite !bind_run. cbn [log].
  destruct (metadata_lookup w "transformer_engine") as [v|e]; reflexivity.
Qed.

Lemma backend_exn_any w name st :
  raises (from_dot_import w name) st = backend_exn w name.
Proof. apply raises_from_dot_import. Qed.

Lemma core_exn_any w st : raises (core_loader w) st = core_exn w.
Proof. apply raises_core_loader. Qed.

Lemma activate_backend_after w name st :
  activate_backend w name st =
  match escaping (backend_exn w name) with
  | Some e => (Raised e, after_backend w name st)
  | None => (Normal tt, after_backend w name st)
  end.
Proof.
  rewrite activate_backend_closed, backend_exn_any. unfold after_backend.
  destruct (backend_exn w name) as [e|]; cbn [escaping]; [|reflexivity].
  destruct (suppressed e); reflexivity.
Qed.

(** The whole body in closed form, from any state. *)
Lemma module_body_closed w st :
  module_body w st =
  match core_exn w with
  | Some e => (Raised e, logged core_event (entered st))
  | None =>
      let st2 := after_backend w "pytorch" (after_core (entered st)) in
      match escaping (backend_exn w "pytorch") with
      | Some e => (Raised e, st2)
      | None =>
          let st3 := after_backend w "jax" st2 in
          match escaping (backend_exn w "jax") with
          | Some e => (Raised e, st3)
          | None => version_resolver w st3
          end
      end
  end.
Proof.
  rewrite module_body_run, core_loader_closed, core_exn_any.
  destruct (core_exn w) as [e|]; [reflexivity|].
  fold (after_core (entered st)). rewrite activate_backend_after.
  destruct (escaping (backend_exn w "pytorch")); [reflexivity|].
  rewrite activate_backend_after.
  destruct (escaping (backend_exn w "jax")); reflexivity.
Qed.

Lemma bootstrap_closed w :
  bootstrap w =
  match core_exn w with
  | Some e => (Raised e, logged core_event st_init)
  | None =>
      let st2 := after_backend w "pytorch" (after_core st_init) in
      match escaping (backend_exn w "pytorch") with
      | Some e => (Raised e, st2)
      | None =>
          let st3 := after_backend w "jax" st2 in
          match escaping (backend_exn w "jax") with
          | Some e => (Raised e, st3)
          | None => version_resolver w st3
          end
      end
  end.
Proof. apply module_body_closed. Qed.

Lemma trace_after_backend w name st :
  trace (after_backend w name st) = (trace st ++ [backend_event name])%list.
Proof. unfold after_backend. destruct (backend_exn w name); reflexivity. Qed.

Lemma trace_version_resolver w st :
  trace (version_resolver w st).2
  = (trace st ++ [EvVersionLookup "transformer_engine"])%list.
Proof.
  rewrite version_resolver_closed. destruct (metadata_lookup w _); reflexivity.
Qed.

(** The events of a run, in the order they happened. *)
Lemma bootstrap_trace w :
  trace (bootstrap w).2 =
  core_event ::
  match core_exn w with
  | Some _ => []
  | None =>
      backend_event "pytorch" ::
      match escaping (backend_exn w "pytorch") with
      | Some _ => []
      | None =>
          backend_event "jax" ::
          match escaping (backend_exn w "jax") with
          | Some _ => []
          | None => [EvVersionLookup "transformer_engine"]
          end
      end
  end.
Proof.
  rewrite bootstrap_closed.
  destruct (core_exn w) as [e|]; [reflexivity|]. cbv zeta.
  destruct (escaping (backend_exn w "pytorch")); cbn [snd].
  { rewrite trace_after_backend. reflexivity. }
  destruct (escaping (backend_exn w "jax")); cbn [snd].
  { rewrite !trace_after_backend. reflexivity. }
  rewrite trace_version_resolver, !trace_after_backend. reflexivity.
Qed.

Lemma known_backends_cases (b : string) :
  b ∈ known_backends → b = "pytorch" ∨ b = "jax".
Proof.
  unfold known_backends. rewrite !elem_of_cons, elem_of_nil. tauto.
Qed.

Lemma raises_bootstrap_core w e :
  core_exn w = Some e → bootstrap w = (Raised e, logged core_event st_init).
Proof. intros H. rewrite bootstrap_closed, H. reflexivity. Qed.

(** C3. Fail-fast ordering. When the core's activation fails the package
    body raises that failure and the import of no backend has been started;
    and whenever the import of a backend has been started, the core's
    activation had completed without an exception, as the first event of
    the run. *)
Theorem fail_fast_ordering (w : world) (b : string) :
  b ∈ known_backends →
  (∀ e st, raises (core_loader w) st = Some e →
     (bootstrap w).1 = Raised e ∧ attempts (bootstrap w).2 b = 0) ∧
  (attempts (bootstrap w).2 b ≠ 0 →
     core_exn w = None ∧
     ∃ rest, trace ((bootstrap w).2) = (core_event :: rest) ∧
             (core_event ∉ rest) ∧ backend_event b ∈ rest).
Proof.
  intros Hb. split.
  - intros e st H. rewrite core_exn_any in H.
    rewrite (raises_bootstrap_core w e H). split; [reflexivity|].
    apply known_backends_cases in Hb as [-> | ->]; reflexivity.
  - intros Hn. unfold attempts in Hn. rewrite bootstrap_trace in *.
    destruct (core_exn w) as [e|].
    { exfalso. apply Hn.
      apply known_backends_cases in Hb as [-> | ->]; reflexivity. }
    split; [reflexivity|]. eexists. split; [reflexivity|].
    destruct (escaping (backend_exn w "pytorch")).
    { apply known_backends_cases in Hb as [-> | ->].
      - split; [|set_solver]. rewrite list_elem_of_singleton. discriminate.
      - exfalso. apply Hn. reflexivity. }
    destruct (escaping (backend_exn w "jax"));
      apply known_backends_cases in Hb as [-> | ->];
      (split; [|set_solver]);
      rewrite !elem_of_cons, ?elem_of_nil; intros H;
      repeat destruct H as [H|H]; try discriminate H; done.
Qed.

Lemma fail_fast_ordering_witness :
  ("pytorch" ∈ known_backends ∧
   raises (core_loader w_core_interrupted) fresh
     = Some (Exn KeyboardInterrupt "^C") ∧
   (bootstrap w_core_interrupted).1 = Raised (Exn KeyboardInterrupt "^C") ∧
   attempts (bootstrap w_core_interrupted).2 "pytorch" = 0) ∧
  ("jax" ∈ known_backends ∧
   attempts (bootstrap w_all_installed).2 "jax" ≠ 0 ∧
   core_exn w_all_installed = None).
Proof.
  assert (Hp : "pytorch" ∈ known_backends) by repeat constructor.
  assert (Hj : "jax" ∈ known_backends) by repeat constructor.
  split.
  - split; [exact Hp|]. split; [reflexivity|].
    apply (proj1 (fail_fast_ordering w_core_interrupted "pytorch" Hp)
             (Exn KeyboardInterrupt "^C") fresh).
    reflexivity.
  - split; [exact Hj|].
    assert (Hn : attempts (bootstrap w_all_installed).2 "jax" ≠ 0)
      by (vm_compute; discriminate).
    split; [exact Hn|].
    apply (proj2 (fail_fast_ordering w_all_installed "jax" Hj) Hn).
Defined.

(** ** Which names end up bound *)

Lemma bootstrap_cases w :
  (∃ e, core_exn w = Some e ∧
        bootstrap w = (Raised e, logged core_event st_init)) ∨
  (core_exn w = None ∧
   ∃ e, escaping (backend_exn w "pytorch") = Some e ∧
        bootstrap w
        = (Raised e, after_backend w "pytorch" (after_core st_init))) ∨
  (core_exn w = None ∧ escaping (backend_exn w "pytorch") = None ∧
   ∃ e, escaping (backend_exn w "jax") = Some e ∧
        bootstrap w
        = (Raised e,
           after_backend w "jax"
             (after_backend w "pytorch" (after_core st_init)))) ∨
  (core_exn w = None ∧ escaping (backend_exn w "pytorch") = None ∧
   escaping (backend_exn w "jax") = None ∧
   bootstrap w
   = version_resolver w
       (after_backend w "jax"
          (after_backend w "pytorch" (after_core st_init)))).
Proof.
  rewrite bootstrap_closed.
  destruct (core_exn w) as [e|]; [left; eauto|right].
  destruct (escaping (backend_exn w "pytorch")) as [e|]; [left; eauto|right].
  destruct (escaping (backend_exn w "jax")) as [e|]; [left; eauto|right].
  auto.
Qed.

(** Case analysis over everything a run depends on. *)
Ltac body_cases :=
  rewrite bootstrap_closed; unfold after_backend; cbv zeta;
  repeat match goal with
  | |- context [match core_exn ?w with _ => _ end] =>
      destruct (core_exn w) eqn:?
  | |- context [escaping (backend_exn ?w ?b)] =>
      destruct (backend_exn w b) eqn:?; cbn [escaping]
  | |- context [if suppressed ?e then _ else _] =>
      destruct (suppressed e) eqn:?
  | |- context [match backend_exn ?w ?b with _ => _ end] =>
      destruct (backend_exn w b) eqn:?
  | |- context [version_resolver ?w ?st] =>
      rewrite (version_resolver_closed w st);
      destruct (metadata_lookup w "transformer_engine") eqn:?
  end.

Lemma active_pytorch w :
  backend_active (bootstrap w).2 "pytorch" =
  match core_exn w, backend_exn w "pytorch" with
  | None, None => true
  | _, _ => false
  end.
Proof.
  body_cases; reflexivity.
Qed.

Lemma active_jax w :
  backend_active (bootstrap w).2 "jax" =
  match core_exn w, escaping (backend_exn w "pytorch"), backend_exn w "jax"
  with
  | None, None, None => true
  | _, _, _ => false
  end.
Proof.
  body_cases; reflexivity.
Qed.

(** ** The imports in terms of the world *)

Lemma backend_exn_world w name :
  backend_exn w name =
  match submodules w (qualified this_package name) with
  | NotInstalled => Some (absent_exn name)
  | Installed (InitRaises e) => Some e
  | Installed InitOk => None
  end.
Proof.
  unfold backend_exn, raises, from_dot_import. rewrite load_submodule_run.
  destruct (submodules w _) as [|[|e]]; reflexivity.
Qed.

Lemma core_exn_world w :
  core_exn w =
  match submodules w "transformer_engine.common" with
  | NotInstalled =>
      Some (Exn ModuleNotFoundError
              "No module named 'transformer_engine.common'")
  | Installed (InitRaises e) => Some e
  | Installed InitOk => None
  end.
Proof.
  unfold core_exn, raises, core_loader, import_dotted.
  rewrite bind_run, load_submodule_run.
  change (qualified "transformer_engine" "common")
    with "transformer_engine.common".
  destruct (submodules w _) as [|[|e]]; reflexivity.
Qed.

Lemma attempts_pytorch w :
  attempts (bootstrap w).2 "pytorch" =
  match core_exn w with Some _ => 0 | None => 1 end.
Proof.
  unfold attempts. rewrite bootstrap_trace.
  destruct (core_exn w); [reflexivity|].
  destruct (escaping (backend_exn w "pytorch")); [reflexivity|].
  destruct (escaping (backend_exn w "jax")); reflexivity.
Qed.

Lemma attempts_jax w :
  attempts (bootstrap w).2 "jax" =
  match core_exn w, escaping (backend_exn w "pytorch") with
  | None, None => 1
  | _, _ => 0
  end.
Proof.
  unfold attempts. rewrite bootstrap_trace.
  destruct (core_exn w); [reflexivity|].
  destruct (escaping (backend_exn w "pytorch")); [reflexivity|].
  destruct (escaping (backend_exn w "jax")); reflexivity.
Qed.

Lemma bootstrap_completes w v :
  core_exn w = None →
  escaping (backend_exn w "pytorch") = None →
  escaping (backend_exn w "jax") = None →
  metadata_lookup w "transformer_engine" = Normal v →
  (bootstrap w).1 = Normal tt ∧
  read_version (bootstrap w).2 = Some (PyStr (py_str v)).
Proof.
  intros Hc Hp Hj Hm. rewrite bootstrap_closed, Hc, Hp, Hj. cbv zeta.
  rewrite version_resolver_closed, Hm. split; [reflexivity|].
  apply lookup_insert_eq.
Qed.

(** C4. With a core that loads and version metadata in place, for every
    set [S] of installed, healthy backends (the others not installed) the
    package body completes without raising and, among the known backends,
    exactly those of [S] are active; the others are inactive for absence.
    The version is the recorded one. *)
Theorem installed_backends_become_active (w : world) (S : gset string)
    (v : string) :
  core_exn w = None →
  metadata_lookup w "transformer_engine" = Normal (PyStr v) →
  (∀ b, b ∈ known_backends →
        submodules w (qualified this_package b)
        = if decide (b ∈ S) then Installed InitOk else NotInstalled) →
  (bootstrap w).1 = Normal tt ∧
  read_version (bootstrap w).2 = Some (PyStr v) ∧
  ∀ b, b ∈ known_backends →
       backend_active (bootstrap w).2 b = bool_decide (b ∈ S) ∧
       activation_state_of w (bootstrap w).2 b
       = if decide (b ∈ S) then Active else InactiveAbsent.
Proof.
  intros Hc Hm HS.
  assert (Hp := HS "pytorch" ltac:(repeat constructor)).
  assert (Hj := HS "jax" ltac:(repeat constructor)).
  assert (Ep : escaping (backend_exn w "pytorch") = None).
  { rewrite backend_exn_world, Hp. destruct (decide ("pytorch" ∈ S)); reflexivity. }
  assert (Ej : escaping (backend_exn w "jax") = None).
  { rewrite backend_exn_world, Hj. destruct (decide ("jax" ∈ S)); reflexivity. }
  destruct (bootstrap_completes w (PyStr v) Hc Ep Ej Hm) as [Hr Hv].
  do 2 (split; [done|]).
  intros b [-> | ->]%known_backends_cases; unfold activation_state_of.
  - rewrite attempts_pytorch, active_pytorch, Hc, backend_exn_world, Hp.
    case_bool_decide; repeat case_decide; done.
  - rewrite attempts_jax, active_jax, Hc, Ep, backend_exn_world, Hj.
    case_bool_decide; repeat case_decide; done.
Qed.

Lemma installed_backends_become_active_witness :
  (bootstrap w_only_pytorch).1 = Normal tt ∧
  backend_active (bootstrap w_only_pytorch).2 "pytorch" = true ∧
  backend_active (bootstrap w_only_pytorch).2 "jax" = false.
Proof.
  assert (HS : ∀ b, b ∈ known_backends →
             submodules w_only_pytorch (qualified this_package b)
             = if decide (b ∈ ({["pytorch"]} : gset string))
               then Installed InitOk else NotInstalled).
  { intros b [-> | ->]%known_backends_cases; reflexivity. }
  destruct (installed_backends_become_active w_only_pytorch {["pytorch"]}
              "2.0" eq_refl eq_refl HS) as (Hr & _ & Ha).
  split; [exact Hr|]. split.
  - exact (proj1 (Ha "pytorch" ltac:(repeat constructor))).
  - exact (proj1 (Ha "jax" ltac:(repeat constructor))).
Defined.

(** ** The tolerance policy of the two [try] statements *)

Lemma attempted_backend_reached w b :
  b ∈ known_backends →
  attempts (bootstrap w).2 b ≠ 0 →
  core_exn w = None ∧ (b = "jax" → escaping (backend_exn w "pytorch") = None).
Proof.
  intros [-> | ->]%known_backends_cases.
  - rewrite attempts_pytorch. destruct (core_exn w); [done|].
    split; [done|discriminate].
  - rewrite attempts_jax. destruct (core_exn w); [done|].
    destruct (escaping (backend_exn w "pytorch")); done.
Qed.

Lemma escaping_backend_aborts w b e :
  b ∈ known_backends →
  attempts (bootstrap w).2 b ≠ 0 →
  escaping (backend_exn w b) = Some e →
  (bootstrap w).1 = Raised e.
Proof.
  intros Hb Ha He.
  destruct (attempted_backend_reached w b Hb Ha) as [Hc Hp].
  rewrite bootstrap_closed, Hc. cbv zeta.
  apply known_backends_cases in Hb as [-> | ->].
  - rewrite He. reflexivity.
  - rewrite (Hp eq_refl), He. reflexivity.
Qed.

(** C5. An exception raised by a backend's import is suppressed by the
    [try] around it exactly when it is an instance of [ImportError] or of
    [FileNotFoundError] (an instance of a subclass is an instance); an
    exception that is an instance of neither leaves the statement
    unchanged, and it ends the run of the package body. *)
Theorem suppressed_exactly_import_or_file_errors
    (w : world) (b : string) (e : exn) (st : pstate) :
  b ∈ known_backends →
  raises (from_dot_import w b) st = Some e →
  (isinstance e ImportError || isinstance e FileNotFoundError = true →
     raises (activate_backend w b) st = None) ∧
  (isinstance e ImportError || isinstance e FileNotFoundError = false →
     raises (activate_backend w b) st = Some e ∧
     (attempts (bootstrap w).2 b ≠ 0 → (bootstrap w).1 = Raised e)).
Proof.
  intros Hb He. fold (suppressed e). split; intros Hs.
  - unfold raises. rewrite activate_backend_closed, He, Hs. reflexivity.
  - split.
    + unfold raises at 1. rewrite activate_backend_closed, He, Hs.
      reflexivity.
    + intros Ha. apply (escaping_backend_aborts w b e Hb Ha).
      rewrite backend_exn_any in He. rewrite He. cbn. by rewrite Hs.
Qed.

Lemma suppressed_exactly_import_or_file_errors_witness :
  raises (activate_backend w_jax_needs_flax "jax") fresh = None ∧
  raises (activate_backend w_pytorch_faulty "pytorch") fresh = Some boom ∧
  (bootstrap w_pytorch_faulty).1 = Raised boom.
Proof.
  assert (Hj : "jax" ∈ known_backends) by repeat constructor.
  assert (Hp : "pytorch" ∈ known_backends) by repeat constructor.
  split.
  - apply (proj1 (suppressed_exactly_import_or_file_errors w_jax_needs_flax
                    "jax" (Exn ModuleNotFoundError "No module named 'flax'")
                    fresh Hj eq_refl)).
    reflexivity.
  - destruct (proj2 (suppressed_exactly_import_or_file_errors
                       w_pytorch_faulty "pytorch" boom fresh Hp eq_refl)
                eq_refl) as [H1 H2].
    split; [exact H1|]. apply H2. vm_compute. discriminate.
Defined.

(** C1, as stated, fails: a backend that is installed and whose
    initialisation raises a [RuntimeError] is not tolerated; the exception
    leaves the [try] and the package body. *)
Lemma backend_fault_ends_bootstrap :
  submodules w_pytorch_faulty "transformer_engine.pytorch"
    = Installed (InitRaises boom) ∧
  raises (activate_backend w_pytorch_faulty "pytorch") (after_core st_init)
    = Some boom ∧
  (bootstrap w_pytorch_faulty).1 = Raised boom.
Proof. repeat split; reflexivity. Qed.

Lemma globals_activate_backend_failed w b e st :
  backend_exn w b = Some e →
  globals (activate_backend w b st).2 = globals st.
Proof.
  intros He. rewrite activate_backend_closed, backend_exn_any, He.
  destruct (suppressed e); reflexivity.
Qed.

Lemma inactive_after_failure w b e :
  b ∈ known_backends →
  backend_exn w b = Some e →
  backend_active (bootstrap w).2 b = false.
Proof.
  intros [-> | ->]%known_backends_cases He.
  - rewrite active_pytorch, He. by destruct (core_exn w).
  - rewrite active_jax, He.
    by destruct (core_exn w), (escaping (backend_exn w "pytorch")).
Qed.

(** C1, amended. When the initialisation of an installed backend raises an
    exception that is an instance of [ImportError] or [FileNotFoundError],
    the [try] around the import suppresses it and binds nothing; if the
    core loads, no backend raises anything else and the version metadata is
    there, the package body completes with that backend inactive-failed. *)
Theorem tolerated_backend_fault_is_suppressed
    (w : world) (b : string) (e : exn) (v : pyval) :
  b ∈ known_backends →
  submodules w (qualified this_package b) = Installed (InitRaises e) →
  isinstance e ImportError || isinstance e FileNotFoundError = true →
  (∀ st, raises (activate_backend w b) st = None ∧
         globals (activate_backend w b st).2 = globals st) ∧
  (core_exn w = None →
   (∀ b', b' ∈ known_backends → escaping (backend_exn w b') = None) →
   metadata_lookup w "transformer_engine" = Normal v →
   (bootstrap w).1 = Normal tt ∧
   backend_active (bootstrap w).2 b = false ∧
   activation_state_of w (bootstrap w).2 b = InactiveFailed).
Proof.
  intros Hb Hw Hs.
  assert (He : backend_exn w b = Some e) by (by rewrite backend_exn_world, Hw).
  split.
  - intros st. split.
    + unfold raises. rewrite activate_backend_closed, backend_exn_any, He.
      unfold suppressed. by rewrite Hs.
    + by apply (globals_activate_backend_failed w b e).
  - intros Hc Hall Hm.
    assert (Hp := Hall "pytorch" ltac:(repeat constructor)).
    assert (Hj := Hall "jax" ltac:(repeat constructor)).
    split; [by apply (bootstrap_completes w v)|].
    assert (Hi := inactive_after_failure w b e Hb He).
    split; [exact Hi|].
    unfold activation_state_of. rewrite Hi, Hw.
    apply known_backends_cases in Hb as [-> | ->].
    + by rewrite attempts_pytorch, Hc.
    + by rewrite attempts_jax, Hc, Hp.
Qed.

Lemma tolerated_backend_fault_is_suppressed_witness :
  (bootstrap w_jax_needs_flax).1 = Normal tt ∧
  backend_active (bootstrap w_jax_needs_flax).2 "jax" = false ∧
  activation_state_of w_jax_needs_flax (bootstrap w_jax_needs_flax).2 "jax"
    = InactiveFailed.
Proof.
  apply (proj2 (tolerated_backend_fault_is_suppressed w_jax_needs_flax "jax"
                  (Exn ModuleNotFoundError "No module named 'flax'")
                  (PyStr "2.0") ltac:(repeat constructor) eq_refl eq_refl)).
  - reflexivity.
  - intros b' [-> | ->]%known_backends_cases; reflexivity.
  - reflexivity.
Defined.



(** ** Each backend once *)

(** C9, as stated, fails: after a pytorch import that raised a
    [RuntimeError] the jax import is never made. *)
Lemma jax_not_attempted_after_pytorch_fault :
  raises (from_dot_import w_pytorch_faulty "pytorch") (after_core st_init)
    = Some boom ∧
  attempts (bootstrap w_pytorch_faulty).2 "pytorch" = 1 ∧
  attempts (bootstrap w_pytorch_faulty).2 "jax" = 0.
Proof. repeat split; reflexivity. Qed.

Lemma attempts_at_most_once w b :
  b ∈ known_backends → (attempts (bootstrap w).2 b ≤ 1)%nat.
Proof.
  intros [-> | ->]%known_backends_cases.
  - rewrite attempts_pytorch. destruct (core_exn w); lia.
  - rewrite attempts_jax.
    destruct (core_exn w), (escaping (backend_exn w "pytorch")); lia.
Qed.

(** C9, amended. No backend import is made twice. Once the core has loaded
    the pytorch import is made exactly once, and the jax import is made
    exactly once whenever the pytorch import succeeded or raised an
    instance of [ImportError] or [FileNotFoundError]. What a backend's
    import does, and whether the backend ends up active in a run that
    reaches it, depends on that backend's own artifact only, not on the
    other backend. *)
Theorem backends_attempted_once (w : world) :
  core_exn w = None →
  (∀ b, b ∈ known_backends → (attempts (bootstrap w).2 b ≤ 1)%nat) ∧
  attempts (bootstrap w).2 "pytorch" = 1 ∧
  (match backend_exn w "pytorch" with
   | None => True
   | Some e =>
       isinstance e ImportError || isinstance e FileNotFoundError = true
   end → attempts (bootstrap w).2 "jax" = 1) ∧
  (∀ w' b, b ∈ known_backends → same_artifact w w' b →
     backend_exn w' b = backend_exn w b ∧
     (attempts (bootstrap w').2 b = 1 → attempts (bootstrap w).2 b = 1 →
      backend_active (bootstrap w').2 b = backend_active (bootstrap w).2 b)).
Proof.
  intros Hc. split; [intros b; apply attempts_at_most_once|].
  split; [by rewrite attempts_pytorch, Hc|]. split.
  - intros Hp. rewrite attempts_jax, Hc.
    destruct (backend_exn w "pytorch") as [e|]; [|reflexivity].
    cbn. unfold suppressed. by rewrite Hp.
  - intros w' b Hb Hs. unfold same_artifact in Hs.
    assert (He : backend_exn w' b = backend_exn w b)
      by (by rewrite !backend_exn_world, Hs).
    split; [exact He|].
    apply known_backends_cases in Hb as [-> | ->].
    + rewrite !attempts_pytorch, !active_pytorch, He.
      by destruct (core_exn w'), (core_exn w).
    + rewrite !attempts_jax, !active_jax, He.
      by destruct (core_exn w'), (core_exn w),
           (escaping (backend_exn w' "pytorch")),
           (escaping (backend_exn w "pytorch")).
Qed.

Lemma backends_attempted_once_witness :
  core_exn w_jax_needs_flax = None ∧
  attempts (bootstrap w_jax_needs_flax).2 "pytorch" = 1 ∧
  attempts (bootstrap w_jax_needs_flax).2 "jax" = 1.
Proof.
  split; [reflexivity|].
  destruct (backends_attempted_once w_jax_needs_flax eq_refl)
    as (_ & H1 & H2 & _).
  split; [exact H1|]. apply H2. exact I.
Defined.

(** ** The order of the steps *)

Lemma normal_run_is_full w :
  (bootstrap w).1 = Normal tt →
  core_exn w = None ∧ escaping (backend_exn w "pytorch") = None ∧
  escaping (backend_exn w "jax") = None ∧
  ∃ v, metadata_lookup w "transformer_engine" = Normal v.
Proof.
  destruct (bootstrap_cases w)
    as [(e & _ & ->)|[(_ & e & _ & ->)|[(_ & _ & e & _ & ->)|
        (Hc & Hp & Hj & ->)]]]; try discriminate.
  rewrite version_resolver_closed.
  destruct (metadata_lookup w _) as [v|e]; [eauto 10|discriminate].
Qed.

(** C10. The events of every run are an initial part of one fixed
    sequence: core, pytorch, jax, version lookup. The version is looked up
    during the run itself, only when both backend imports are behind, and a
    run that completes has made the lookup and assigned [__version__]. *)
Theorem bootstrap_order (w : world) :
  (∃ n, 1 ≤ n ∧ trace (bootstrap w).2 = take n full_order)%nat ∧
  (EvVersionLookup "transformer_engine" ∈ trace (bootstrap w).2 →
     trace (bootstrap w).2 = full_order) ∧
  ((bootstrap w).1 = Normal tt →
     trace (bootstrap w).2 = full_order ∧
     is_Some (read_version (bootstrap w).2)).
Proof.
  split; [|split].
  - rewrite bootstrap_trace.
    destruct (core_exn w); [exists 1; split; [lia|reflexivity]|].
    destruct (escaping (backend_exn w "pytorch"));
      [exists 2; split; [lia|reflexivity]|].
    destruct (escaping (backend_exn w "jax"));
      [exists 3|exists 4]; (split; [lia|reflexivity]).
  - rewrite bootstrap_trace.
    destruct (core_exn w);
      [|destruct (escaping (backend_exn w "pytorch"));
        [|destruct (escaping (backend_exn w "jax"))]];
      try reflexivity;
      rewrite !elem_of_cons, elem_of_nil; intros H;
      repeat destruct H as [H|H]; try discriminate H; done.
  - intros (Hc & Hp & Hj & v & Hv)%normal_run_is_full.
    split; [by rewrite bootstrap_trace, Hc, Hp, Hj|].
    destruct (bootstrap_completes w v Hc Hp Hj Hv) as [_ ->]. eauto.
Qed.

Lemma bootstrap_order_witness :
  (bootstrap w_only_pytorch).1 = Normal tt ∧
  trace (bootstrap w_only_pytorch).2 = full_order ∧
  is_Some (read_version (bootstrap w_only_pytorch).2).
Proof.
  split; [reflexivity|].
  apply (proj2 (proj2 (bootstrap_order w_only_pytorch))). reflexivity.
Defined.

(** ** The version *)

(** C2, as stated, fails: with the metadata of the distribution missing
    and everything else in place, the package body itself raises; nothing
    waits for a query. *)
Lemma missing_metadata_ends_bootstrap :
  core_exn w_no_metadata = None ∧
  backend_exn w_no_metadata "pytorch" = None ∧
  backend_exn w_no_metadata "jax" = None ∧
  (bootstrap w_no_metadata).1 = Raised (no_metadata "transformer_engine").
Proof. repeat split; reflexivity. Qed.

Lemma same_submodules_exn w w' :
  same_submodules w w' →
  core_exn w = core_exn w' ∧ ∀ b, backend_exn w b = backend_exn w' b.
Proof.
  intros H. split; [by rewrite !core_exn_world, H|].
  intros b. by rewrite !backend_exn_world, H.
Qed.

Lemma read_version_unassigned w :
  (∀ v, metadata_lookup w "transformer_engine" ≠ Normal v) →
  read_version (bootstrap w).2 = None.
Proof.
  intros Hm. unfold read_version. body_cases; try reflexivity;
    exfalso; by eapply Hm.
Qed.

(** C2, amended. When the lookup of the version metadata raises, and the
    run gets that far, the exception leaves the package body: the import
    of the package fails with it and [__version__] is never assigned. It is
    raised as the last step, after the core and both backend imports, and
    those went as in any world with the same sub-packages, whatever its
    metadata. *)
Theorem version_failure_ends_bootstrap (w : world) (e : exn) :
  metadata_lookup w "transformer_engine" = Raised e →
  core_exn w = None →
  escaping (backend_exn w "pytorch") = None →
  escaping (backend_exn w "jax") = None →
  (bootstrap w).1 = Raised e ∧
  read_version (bootstrap w).2 = None ∧
  trace (bootstrap w).2 = full_order ∧
  ∀ w', same_submodules w w' →
        core_exn w' = None ∧
        ∀ b, b ∈ known_backends →
             attempts (bootstrap w').2 b = attempts (bootstrap w).2 b ∧
             backend_active (bootstrap w').2 b
             = backend_active (bootstrap w).2 b.
Proof.
  intros Hm Hc Hp Hj. split; [|split; [|split]].
  - rewrite bootstrap_closed, Hc, Hp, Hj. cbv zeta.
    by rewrite version_resolver_closed, Hm.
  - apply read_version_unassigned. intros v. by rewrite Hm.
  - by rewrite bootstrap_trace, Hc, Hp, Hj.
  - intros w' [Hc' Hb']%same_submodules_exn.
    split; [congruence|].
    intros b [-> | ->]%known_backends_cases.
    + by rewrite !attempts_pytorch, !active_pytorch, <- Hc', !Hb'.
    + by rewrite !attempts_jax, !active_jax, <- Hc', !Hb'.
Qed.

Lemma version_failure_ends_bootstrap_witness :
  metadata_lookup w_no_metadata "transformer_engine"
    = Raised (no_metadata "transformer_engine") ∧
  (bootstrap w_no_metadata).1 = Raised (no_metadata "transformer_engine") ∧
  read_version (bootstrap w_no_metadata).2 = None.
Proof.
  split; [reflexivity|].
  destruct (version_failure_ends_bootstrap w_no_metadata
              (no_metadata "transformer_engine")
              eq_refl eq_refl eq_refl eq_refl) as (H1 & H2 & _).
  split; assumption.
Defined.

Lemma module_body_history w h :
  module_body w (PState ∅ h) =
  ((bootstrap w).1, with_history h (bootstrap w).2).
Proof.
  rewrite bootstrap_closed, module_body_closed.
  unfold after_backend, with_history.
  destruct (core_exn w); cbv zeta;
    [|destruct (backend_exn w "pytorch") as [ep|]; cbn [escaping];
      [destruct (suppressed ep)|];
      try (destruct (backend_exn w "jax") as [ej|]; cbn [escaping];
           [destruct (suppressed ej)|]);
      rewrite ?version_resolver_closed;
      try destruct (metadata_lookup w "transformer_engine")];
    unfold st_init, after_core, entered, bound, logged, fresh;
    cbn [fst snd globals trace app];
    by rewrite <- ?app_assoc.
Qed.

Lemma version_query_first w p :
  sys_modules p !! this_package = None →
  version_query w p =
  (answer w,
   match (bootstrap w).1 with
   | Normal _ =>
       Process (<[this_package := globals (bootstrap w).2]> (sys_modules p))
         (history p ++ trace (bootstrap w).2)
   | Raised _ =>
       Process (sys_modules p) (history p ++ trace (bootstrap w).2)
   end).
Proof.
  intros H. unfold version_query, import_package, answer.
  rewrite H, module_body_history.
  destruct (bootstrap w).1; reflexivity.
Qed.

Lemma version_query_cached w p m :
  sys_modules p !! this_package = Some m →
  version_query w p = (getattr m "__version__", p).
Proof.
  intros H. unfold version_query, import_package. rewrite H. reflexivity.
Qed.

Lemma settled_query w p :
  settled w p →
  (version_query w p).1 = answer w ∧ settled w (version_query w p).2.
Proof.
  intros [H|[[u Hu] H]].
  - rewrite (version_query_first w p H). split; [reflexivity|].
    cbn [snd]. destruct (bootstrap w).1 as [u|e] eqn:E.
    + right. split; [eauto|]. cbn. apply lookup_insert_eq.
    + left. exact H.
  - rewrite (version_query_cached w p _ H). unfold answer. rewrite Hu.
    split; [reflexivity|]. right. eauto.
Qed.

Lemma settled_after_queries w n p :
  settled w p → settled w (after_queries w n p).
Proof.
  revert p. induction n as [|n IH]; intros p Hp; [exact Hp|].
  cbn. apply IH. by apply settled_query.
Qed.

Lemma settled_new w : settled w new_process.
Proof. left. reflexivity. Qed.

(** Once the module is registered a query changes nothing. *)
Lemma registered_stays w n p m :
  sys_modules p !! this_package = Some m → after_queries w n p = p.
Proof.
  intros H. induction n as [|n IH]; [reflexivity|].
  cbn. rewrite (version_query_cached w p m H). exact IH.
Qed.

Lemma answer_normal w v :
  answer w = Normal v →
  (bootstrap w).1 = Normal tt ∧ trace (bootstrap w).2 = full_order ∧
  ∃ v0, metadata_lookup w "transformer_engine" = Normal v0 ∧
        v = PyStr (py_str v0).
Proof.
  unfold answer. destruct (bootstrap w).1 as [[]|e] eqn:E; [|discriminate].
  destruct (normal_run_is_full w E) as (Hc & Hp & Hj & v0 & Hv).
  destruct (bootstrap_completes w v0 Hc Hp Hj Hv) as [_ Hr].
  unfold read_version in Hr. unfold getattr. rewrite Hr. intros [= <-].
  split; [reflexivity|]. split; [|eauto].
  by rewrite bootstrap_trace, Hc, Hp, Hj.
Qed.

Lemma answer_raised w e :
  metadata_lookup w "transformer_engine" = Raised e →
  ∃ e', answer w = Raised e' ∧
        (core_exn w = None →
         escaping (backend_exn w "pytorch") = None →
         escaping (backend_exn w "jax") = None → e' = e).
Proof.
  intros Hm. unfold answer.
  destruct (bootstrap w).1 as [[]|e'] eqn:E.
  - destruct (normal_run_is_full w E) as (_ & _ & _ & v & Hv). congruence.
  - exists e'. split; [reflexivity|]. intros Hc Hp Hj.
    rewrite bootstrap_closed, Hc, Hp, Hj in E. cbv zeta in E.
    rewrite version_resolver_closed, Hm in E. by injection E.
Qed.

(** C7. Every version query of a process answers what the first one
    answered, be it a value or an exception. When the first query
    succeeds the answer is a string and, however many queries follow, the
    metadata has been looked up exactly once: the value sits in the
    registered module. When the metadata lookup raises, every query raises,
    and what it raises is the lookup's exception as soon as the body gets
    as far as the lookup. *)
Theorem version_query_idempotent (w : world) (n : nat) :
  (version_query w (after_queries w n new_process)).1
  = (version_query w new_process).1 ∧
  (∀ v, (version_query w new_process).1 = Normal v →
        (∃ s, v = PyStr s) ∧
        lookups_made (after_queries w (S n) new_process) = 1) ∧
  (∀ e, metadata_lookup w "transformer_engine" = Raised e →
        ∃ e', (version_query w (after_queries w n new_process)).1
              = Raised e' ∧
              (core_exn w = None →
               escaping (backend_exn w "pytorch") = None →
               escaping (backend_exn w "jax") = None → e' = e)).
Proof.
  assert (Hn := proj1 (settled_query w _
                         (settled_after_queries w n _ (settled_new w)))).
  assert (H0 := proj1 (settled_query w _ (settled_new w))).
  split; [congruence|]. split.
  - intros v Hv. rewrite H0 in Hv.
    destruct (answer_normal w v Hv) as (Hr & Ht & v0 & _ & ->).
    split; [eauto|]. cbn [after_queries].
    rewrite (version_query_first w new_process eq_refl), Hr. cbn [snd].
    erewrite registered_stays; [|apply lookup_insert_eq].
    unfold lookups_made. cbn [history new_process app]. rewrite Ht.
    reflexivity.
  - intros e He. rewrite Hn. by apply answer_raised.
Qed.

Lemma version_query_idempotent_witness :
  (version_query w_only_pytorch (after_queries w_only_pytorch 2 new_process)).1
    = Normal (PyStr "2.0") ∧
  lookups_made (after_queries w_only_pytorch 3 new_process) = 1 ∧
  (version_query w_no_metadata (after_queries w_no_metadata 2 new_process)).1
    = Raised (no_metadata "transformer_engine").
Proof.
  destruct (version_query_idempotent w_only_pytorch 2) as (H1 & H2 & _).
  destruct (version_query_idempotent w_no_metadata 2) as (_ & _ & H3).
  split; [rewrite H1; reflexivity|]. split.
  - apply (H2 (PyStr "2.0")). reflexivity.
  - destruct (H3 (no_metadata "transformer_engine") eq_refl) as (e' & -> & He).
    by rewrite He.
Defined.

(** * Further properties of the package body *)

(** ** How a run ends *)

Lemma raises_activate_backend w b st :
  raises (activate_backend w b) st = escaping (backend_exn w b).
Proof.
  unfold raises. rewrite activate_backend_after.
  by destruct (escaping (backend_exn w b)).
Qed.

(** X1. The package body completes exactly when the core loads, each of
    the two [try] statements completes, and the metadata lookup returns a
    value. *)
Theorem bootstrap_completes_iff (w : world) :
  (bootstrap w).1 = Normal tt ↔
  raises (core_loader w) fresh = None ∧
  raises (activate_backend w "pytorch") fresh = None ∧
  raises (activate_backend w "jax") fresh = None ∧
  ∃ v, metadata_lookup w "transformer_engine" = Normal v.
Proof.
  rewrite !raises_activate_backend, core_exn_any. split.
  - apply normal_run_is_full.
  - intros (Hc & Hp & Hj & v & Hv).
    apply (bootstrap_completes w v Hc Hp Hj Hv).
Qed.

(** X2. The exception that leaves the package body is that of the first
    step that fails, as it was raised: the core's; else that of the pytorch
    [try]; else that of the jax [try]; else that of the metadata lookup. *)
Theorem first_failure_leaves_the_body (w : world) (e : exn) :
  (bootstrap w).1 = Raised e ↔
  raises (core_loader w) fresh = Some e ∨
  raises (core_loader w) fresh = None ∧
  (raises (activate_backend w "pytorch") fresh = Some e ∨
   raises (activate_backend w "pytorch") fresh = None ∧
   (raises (activate_backend w "jax") fresh = Some e ∨
    raises (activate_backend w "jax") fresh = None ∧
    metadata_lookup w "transformer_engine" = Raised e)).
Proof.
  rewrite !raises_activate_backend, core_exn_any, bootstrap_closed.
  destruct (core_exn w) as [ec|]; cbv zeta.
  { cbn [fst]. split; [intros [= ->]; by left|].
    intros [[= ->]|[? _]]; [reflexivity|discriminate]. }
  destruct (escaping (backend_exn w "pytorch")) as [ep|].
  { cbn [fst]. split; [intros [= ->]; right; split; [done|by left]|].
    intros [?|[_ [[= ->]|[? _]]]]; [discriminate|reflexivity|discriminate]. }
  destruct (escaping (backend_exn w "jax")) as [ej|].
  { cbn [fst]. split.
    - intros [= ->]. right. split; [done|]. right. split; [done|by left].
    - intros [?|[_ [?|[_ [[= ->]|[? _]]]]]];
        [discriminate|discriminate|reflexivity|discriminate]. }
  rewrite version_resolver_closed.
  destruct (metadata_lookup w "transformer_engine") as [v|ev]; cbn [fst].
  - split; [discriminate|].
    intros [?|[_ [?|[_ [?|[_ ?]]]]]]; discriminate.
  - split.
    + intros [= ->]. right. split; [done|]. right. split; [done|].
      right. by split.
    + intros [?|[_ [?|[_ [?|[_ [= ->]]]]]]];
        [discriminate|discriminate|discriminate|reflexivity].
Qed.

(** X3. [__version__] is bound exactly in the runs that complete, and then
    to a string: [str] of whatever the lookup returned, be it a string or
    not. A run that raises, at whatever step, leaves it unbound. *)
Theorem version_bound_iff_completed (w : world) :
  match (bootstrap w).1 with
  | Normal _ =>
      ∃ v, metadata_lookup w "transformer_engine" = Normal v ∧
           read_version (bootstrap w).2 = Some (PyStr (py_str v))
  | Raised _ => read_version (bootstrap w).2 = None
  end.
Proof.
  destruct (bootstrap w).1 as [[]|e] eqn:E.
  - destruct (normal_run_is_full w E) as (Hc & Hp & Hj & v & Hv).
    exists v. split; [exact Hv|].
    apply (bootstrap_completes w v Hc Hp Hj Hv).
  - revert E. unfold read_version. body_cases; cbn [fst snd];
      try discriminate; reflexivity.
Qed.

(** ** One backend at a time *)

Lemma globals_after_backend w b st :
  globals (after_backend w b st) =
  match backend_exn w b with
  | None => <[b := PyModule (qualified this_package b)]> (globals st)
  | Some _ => globals st
  end.
Proof. unfold after_backend. by destruct (backend_exn w b). Qed.




(** X5. When both [try] statements complete, their order does not matter
    for the names bound: from any state, running them as written or the
    other way round ends with the same globals. *)
Theorem backend_activations_commute
    (w : world) (b1 b2 : string) (st : pstate) :
  b1 ≠ b2 →
  raises (activate_backend w b1) st = None →
  raises (activate_backend w b2) st = None →
  (activate_both w b1 b2 st).1 = Normal tt ∧
  (activate_both w b2 b1 st).1 = Normal tt ∧
  globals (activate_both w b1 b2 st).2 = globals (activate_both w b2 b1 st).2.
Proof.
  rewrite !raises_activate_backend. intros Hne H1 H2.
  unfold activate_both. rewrite !bind_run, !activate_backend_after.
  rewrite H1, H2, !activate_backend_after, H1, H2. cbn [fst snd].
  do 2 (split; [reflexivity|]).
  rewrite !globals_after_backend.
  destruct (backend_exn w b1), (backend_exn w b2); try reflexivity.
  by apply insert_insert_ne.
Qed.

Lemma backend_activations_commute_witness :
  globals (activate_both w_jax_needs_flax "pytorch" "jax" fresh).2
  = globals (activate_both w_jax_needs_flax "jax" "pytorch" fresh).2.
Proof.
  apply (backend_activations_commute w_jax_needs_flax "pytorch" "jax" fresh);
    [discriminate|reflexivity|reflexivity].
Defined.

(** The two [try] statements are a block of the body. *)
Lemma module_body_activate_both w st :
  module_body w st =
  (from_importlib_import_metadata ;; core_loader w ;;
   (activate_both w "pytorch" "jax" ;; version_resolver w)) st.
Proof.
  unfold module_body, activate_both. rewrite !bind_run.
  destruct (from_importlib_import_metadata st) as [[[]|e] st0]; [|done].
  rewrite !bind_run.
  destruct (core_loader w st0) as [[[]|e] st1]; [|done].
  rewrite !bind_run.
  destruct (activate_backend w "pytorch" st1) as [[[]|e] st2]; [|done].
  rewrite ?bind_run.
  destruct (activate_backend w "jax" st2) as [[[]|e] st3]; done.
Qed.

(** ** The names of the module *)

Ltac body_cases_at :=
  rewrite !module_body_closed; unfold after_backend; cbv zeta;
  repeat match goal with
  | |- context [match core_exn ?w with _ => _ end] =>
      destruct (core_exn w) eqn:?
  | |- context [escaping (backend_exn ?w ?b)] =>
      destruct (backend_exn w b) eqn:?; cbn [escaping]
  | |- context [if suppressed ?e then _ else _] =>
      destruct (suppressed e) eqn:?
  | |- context [match backend_exn ?w ?b with _ => _ end] =>
      destruct (backend_exn w b) eqn:?
  | |- context [version_resolver ?w ?st] =>
      rewrite (version_resolver_closed w st);
      destruct (metadata_lookup w "transformer_engine") eqn:?
  end;
  unfold after_core, entered, bound, logged; cbn [fst snd globals trace].



(** X7. The body never unbinds: a name bound before a run, from any state
    and however the run ends, is bound after it. In particular a backend
    name bound earlier stays bound when its import now fails. *)
Theorem module_body_keeps_bindings (w : world) (st : pstate) (k : string) :
  is_Some (globals st !! k) →
  is_Some (globals (module_body w st).2 !! k).
Proof.
  intros Hk. body_cases_at;
    repeat (apply lookup_insert_is_Some'; right); exact Hk.
Qed.

Lemma module_body_keeps_bindings_witness :
  is_Some (globals (module_body w_core_only (bootstrap w_all_installed).2).2
             !! "pytorch").
Proof.
  apply (module_body_keeps_bindings w_core_only
           (bootstrap w_all_installed).2 "pytorch").
  vm_compute. eauto.
Defined.

Lemma result_module_body w st st' :
  (module_body w st).1 = (module_body w st').1.
Proof.
  rewrite !module_body_closed.
  destruct (core_exn w); [reflexivity|]. cbv zeta.
  destruct (escaping (backend_exn w "pytorch")); [reflexivity|].
  destruct (escaping (backend_exn w "jax")); [reflexivity|].
  rewrite !version_resolver_closed.
  by destruct (metadata_lookup w _).
Qed.

(** What a run writes does not depend on what was bound before: the
    globals after a run from [st] are those of a run from scratch, laid
    over the globals of [st]. *)
Lemma globals_module_body w st :
  globals (module_body w st).2 = globals (bootstrap w).2 ∪ globals st.
Proof.
  unfold bootstrap. body_cases_at; simplify_eq; unfold fresh; cbn [globals];
    by rewrite <- ?insert_union_l, (left_id ∅ (∪)).
Qed.

(** X8. Running the body a second time in the module it has just run in
    (a reload with the world unchanged) ends the same way and leaves the
    globals as the first run left them, whether the runs complete or
    raise. *)
Theorem module_body_rerun (w : world) (st : pstate) :
  (module_body w (module_body w st).2).1 = (module_body w st).1 ∧
  globals (module_body w (module_body w st).2).2
  = globals (module_body w st).2.
Proof.
  split; [apply result_module_body|].
  rewrite (globals_module_body w (module_body w st).2).
  rewrite (globals_module_body w st).
  by rewrite (assoc (∪)), (idemp (∪)).
Qed.

(** ** Subclasses of the tolerated classes *)

Lemma exc_class_induction (P : exc_class → Prop) :
  (∀ n bs, Forall P bs → P (PyClass n bs)) → ∀ c, P c.
Proof.
  intros H. fix IH 1. intros [n bs]. apply H.
  induction bs as [|b bs IHbs]; constructor; [apply IH|exact IHbs].
Qed.

Lemma class_eqb_eq c d : class_eqb c d = true → c = d.
Proof.
  revert d. induction c as [n bs IH] using exc_class_induction.
  intros [m ds]. cbn [class_eqb].
  intros [Hn Hb]%andb_true_iff. apply String.eqb_eq in Hn as ->.
  f_equal. revert ds Hb.
  induction IH as [|b bs Hb' _ IHbs]; intros [|d ds] Hb; try done.
  apply andb_true_iff in Hb as [H1 H2].
  f_equal; [by apply Hb'|by apply IHbs].
Qed.

Lemma issubclass_trans a b c :
  issubclass a b = true → issubclass b c = true → issubclass a c = true.
Proof.
  revert b c. induction a as [n bs IH] using exc_class_induction.
  intros b c Hab Hbc. cbn [issubclass] in Hab.
  apply orb_true_iff in Hab as [Heq|Hex].
  - by apply class_eqb_eq in Heq as <-.
  - apply existsb_exists in Hex as (x & Hx & Hxb).
    cbn [issubclass]. apply orb_true_iff. right.
    apply existsb_exists. exists x. split; [exact Hx|].
    rewrite Forall_forall in IH.
    eapply IH; [by apply list_elem_of_In|exact Hxb|exact Hbc].
Qed.

(** X9. The tolerance is inherited: an exception of a backend import is
    suppressed as soon as its class is a subclass, at any distance and
    beside whatever other bases, of a class that is [ImportError],
    [FileNotFoundError] or a subclass of one of them. *)
Theorem suppression_is_inherited
    (w : world) (b : string) (st : pstate) (e : exn) (c : exc_class) :
  raises (from_dot_import w b) st = Some e →
  issubclass (exn_type e) c = true →
  issubclass c ImportError || issubclass c FileNotFoundError = true →
  raises (activate_backend w b) st = None.
Proof.
  intros He Hc Ht. rewrite raises_activate_backend.
  rewrite backend_exn_any in He. rewrite He. cbn [escaping].
  assert (Hs : suppressed e = true); [|by rewrite Hs].
  unfold suppressed, isinstance.
  apply orb_true_iff in Ht as [Ht|Ht]; apply orb_true_iff; [left|right];
    by apply (issubclass_trans _ c).
Qed.

Lemma suppression_is_inherited_witness :
  raises (activate_backend w_jax_unavailable "jax") fresh = None.
Proof.
  apply (suppression_is_inherited w_jax_unavailable "jax" fresh
           (Exn BackendUnavailable "no accelerator") ModuleNotFoundError);
    reflexivity.
Defined.

(** ** Which backends are active after a run *)

(** X10. In every world, after a run that completes or raises, a known
    backend is active exactly when its import was made and returned; its
    name is then bound to its own module, and is unbound otherwise. *)
Theorem backend_active_iff_imported (w : world) (b : string) :
  b ∈ known_backends →
  (backend_active (bootstrap w).2 b = true ↔
   attempts (bootstrap w).2 b = 1 ∧
   raises (from_dot_import w b) fresh = None) ∧
  globals (bootstrap w).2 !! b
  = if backend_active (bootstrap w).2 b
    then Some (PyModule (qualified this_package b)) else None.
Proof.
  intros [-> | ->]%known_backends_cases; rewrite backend_exn_any; split.
  - rewrite active_pytorch, attempts_pytorch.
    destruct (core_exn w), (backend_exn w "pytorch");
      (split; [intros ?|intros [? ?]]; done).
  - body_cases; reflexivity.
  - rewrite active_jax, attempts_jax.
    destruct (core_exn w), (escaping (backend_exn w "pytorch")),
      (backend_exn w "jax"); (split; [intros ?|intros [? ?]]; done).
  - body_cases; reflexivity.
Qed.

Lemma backend_active_iff_imported_witness :
  backend_active (bootstrap w_jax_needs_flax).2 "pytorch" = true ∧
  globals (bootstrap w_jax_needs_flax).2 !! "jax" = None.
Proof.
  destruct (backend_active_iff_imported w_jax_needs_flax "pytorch"
              ltac:(repeat constructor)) as [Hp _].
  destruct (backend_active_iff_imported w_jax_needs_flax "jax"
              ltac:(repeat constructor)) as [_ Hj].
  split.
  - apply Hp. split; reflexivity.
  - rewrite Hj. reflexivity.
Defined.

(** ** Reading a failure *)

Lemma escaping_Some_inv o e :
  escaping o = Some e → o = Some e ∧ suppressed e = false.
Proof.
  destruct o as [e'|]; [|discriminate]. cbn.
  destruct (suppressed e') eqn:E; [discriminate|]. intros [= ->]. auto.
Qed.

(** X11. An [ImportError] or [FileNotFoundError] (or an instance of a
    subclass) that leaves the package body never comes from a backend: it
    is the core's own exception or that of the metadata lookup. *)
Theorem import_error_is_not_from_a_backend (w : world) (e : exn) :
  (bootstrap w).1 = Raised e →
  isinstance e ImportError || isinstance e FileNotFoundError = true →
  raises (core_loader w) fresh = Some e ∨
  metadata_lookup w "transformer_engine" = Raised e.
Proof.
  intros Hr Hs. fold (suppressed e) in Hs. rewrite core_exn_any.
  destruct (bootstrap_cases w)
    as [(e' & Hc & H)|[(_ & e' & He & H)|[(_ & _ & e' & He & H)|
        (_ & _ & _ & H)]]]; rewrite H in Hr.
  - left. by injection Hr as ->.
  - injection Hr as ->. apply escaping_Some_inv in He as [_ He]. congruence.
  - injection Hr as ->. apply escaping_Some_inv in He as [_ He]. congruence.
  - right. rewrite version_resolver_closed in Hr.
    destruct (metadata_lookup w _); [discriminate|]. by injection Hr as ->.
Qed.

Lemma import_error_is_not_from_a_backend_witness :
  metadata_lookup w_no_metadata "transformer_engine"
  = Raised (no_metadata "transformer_engine").
Proof.
  destruct (import_error_is_not_from_a_backend w_no_metadata
              (no_metadata "transformer_engine") eq_refl eq_refl)
    as [H|H]; [discriminate H|exact H].
Defined.

(** ** The attributes of the package *)

